(** * ForegroundWatcher: shallow embedding of src/main.rs

    The program polls the foreground window, and on every change of the
    window handle resolves the owning process id, the process' executable
    path (through a sysinfo snapshot) and the window title, and logs one
    line.  Rust [String]s are modelled as Rocq [string]s, i.e. as their
    UTF-8 bytes; Windows wide strings as lists of UTF-16 code units. *)

From Stdlib Require Import ZArith Lia String Ascii.
From stdpp Require Import base gmap list strings.
Open Scope Z_scope.

(** ** Machine-level data *)

(** [HWND]: an opaque pointer-sized window handle; [0] is the null handle. *)
Definition HWND := Z.

(** A process id, as the [u32] of [GetWindowThreadProcessId]. *)
Definition Pid := Z.

(** A wide (UTF-16) string as Windows hands it out. *)
Definition wstring := list Z.

(** ** Platform (Win32 and OS) state observed at one poll *)

(** The local date and time, as [chrono::Local::now()] yields it. *)
Record DateTime := mkDateTime {
  dt_year : Z; dt_month : Z; dt_day : Z;
  dt_hour : Z; dt_minute : Z; dt_second : Z
}.

(** A process as the OS reports it to sysinfo: its executable path, if the
    OS gives it (it may not, e.g. for lack of permissions). *)
Record Process := mkProcess { exe : option wstring }.

(** What the operating system answers during one iteration of the loop. *)
Record Platform := mkPlatform {
  foreground_window : HWND;          (* GetForegroundWindow (0 if none) *)
  window_owner : HWND -> Pid;        (* owner pid, 0 if none reported *)
  window_text_length : HWND -> N;    (* GetWindowTextLengthW *)
  window_text : HWND -> wstring;     (* the window's current title *)
  os_process : Pid -> option Process;(* the live OS process table *)
  local_now : DateTime               (* Local::now() *)
}.

(** ** The Win32 calls, per their documented contracts *)

Definition GetForegroundWindow (p : Platform) : HWND := foreground_window p.

(** [GetWindowThreadProcessId(hwnd, Some(&mut pid))]: fails on the null
    handle, leaving [pid] untouched; otherwise stores the owner pid. *)
Definition GetWindowThreadProcessId (p : Platform) (hwnd : HWND) (pid : Pid)
  : Pid :=
  if (hwnd =? 0)%Z then pid else window_owner p hwnd.

Definition GetWindowTextLengthW (p : Platform) (hwnd : HWND) : Z :=
  Z.of_N (window_text_length p hwnd).

(** [GetWindowTextW(hwnd, &mut buffer)]: [nMaxCount] is the buffer length;
    copies at most [nMaxCount - 1] units of the title followed by a NUL
    terminator, and returns the number of units copied (NUL excluded).
    The result is the returned count and the buffer afterwards. *)
Definition GetWindowTextW (p : Platform) (hwnd : HWND) (buffer : list Z)
  : Z * list Z :=
  let n := length buffer in
  match n with
  | O => (0, buffer)
  | S m =>
      let copied := firstn m (window_text p hwnd) in
      let k := length copied in
      (Z.of_nat k, copied ++ [0] ++ drop (S k) buffer)
  end.

(** ** Text conversions of the Rust standard library *)

Definition is_high_surrogate (w : Z) : bool := (55296 <=? w) && (w <=? 56319).
Definition is_low_surrogate (w : Z) : bool := (56320 <=? w) && (w <=? 57343).

(** UTF-16 decoding, unpaired surrogates replaced by U+FFFD (65533). *)
Fixpoint decode_utf16_lossy (ws : list Z) : list Z :=
  match ws with
  | [] => []
  | w :: rest =>
      if is_high_surrogate w then
        match rest with
        | w2 :: rest' =>
            if is_low_surrogate w2 then
              (65536 + Z.shiftl (w - 55296) 10 + (w2 - 56320))
                :: decode_utf16_lossy rest'
            else 65533 :: decode_utf16_lossy rest
        | [] => [65533]
        end
      else if is_low_surrogate w then 65533 :: decode_utf16_lossy rest
      else w :: decode_utf16_lossy rest
  end.

Definition byte (b : Z) : ascii := ascii_of_N (Z.to_N b).

(** The UTF-8 encoding of one scalar value, as Rust stores a [char]. *)
Definition encode_utf8 (c : Z) : string :=
  if c <? 128 then String (byte c) EmptyString
  else if c <? 2048 then
    String (byte (Z.lor 192 (Z.shiftr c 6)))
      (String (byte (Z.lor 128 (Z.land c 63))) EmptyString)
  else if c <? 65536 then
    String (byte (Z.lor 224 (Z.shiftr c 12)))
      (String (byte (Z.lor 128 (Z.land (Z.shiftr c 6) 63)))
        (String (byte (Z.lor 128 (Z.land c 63))) EmptyString))
  else
    String (byte (Z.lor 240 (Z.shiftr c 18)))
      (String (byte (Z.lor 128 (Z.land (Z.shiftr c 12) 63)))
        (String (byte (Z.lor 128 (Z.land (Z.shiftr c 6) 63)))
          (String (byte (Z.lor 128 (Z.land c 63))) EmptyString))).

Fixpoint string_of_chars (cs : list Z) : string :=
  match cs with
  | [] => EmptyString
  | c :: cs' => String.append (encode_utf8 c) (string_of_chars cs')
  end.

(** [String::from_utf16_lossy]. *)
Definition from_utf16_lossy (v : list Z) : string :=
  string_of_chars (decode_utf16_lossy v).

(** [OsStr::to_string_lossy] of a Windows path (WTF-16 underneath). *)
Definition to_string_lossy (p : wstring) : string := from_utf16_lossy p.

Definition nul : ascii := ascii_of_nat 0.

(** [s.trim_end_matches('\u{0}')]: drops every trailing NUL byte (in UTF-8
    the NUL character is the single byte 0). *)
Fixpoint trim_end_nul (s : string) : string :=
  match s with
  | EmptyString => EmptyString
  | String c r =>
      let r' := trim_end_nul r in
      match r' with
      | EmptyString => if Ascii.eqb c nul then EmptyString else String c r'
      | _ => String c r'
      end
  end.

(** ** The window helpers of main.rs *)

(** [get_active_window_handle]: [GetForegroundWindow().into()] goes through
    the standard [impl<T> From<T> for Option<T>], so it is always [Some],
    the null handle included. *)
Definition get_active_window_handle (p : Platform) : option HWND :=
  Some (GetForegroundWindow p).

(** [get_window_text]. *)
Definition get_window_text (p : Platform) (hwnd : HWND) : option string :=
  let length := GetWindowTextLengthW p hwnd + 1 in
  if length =? 0 then None
  else
    let buffer := repeat 0 (Z.to_nat length) in
    let '(copied, buffer) := GetWindowTextW p hwnd buffer in
    if copied =? 0 then None
    else Some (trim_end_nul (from_utf16_lossy (take (Z.to_nat copied) buffer))).

(** [get_process_id]. *)
Definition get_process_id (p : Platform) (hwnd : HWND) : option Pid :=
  let pid := GetWindowThreadProcessId p hwnd 0 in
  if negb (pid =? 0) then Some pid else None.

(** ** The sysinfo process snapshot *)

(** [System]: sysinfo's map from pid to the process it last saw. *)
Definition System := gmap Pid Process.

(** [system.refresh_processes(ProcessesToUpdate::Some(pids), remove_dead)]:
    each listed pid is re-read from the OS; a pid the OS no longer has is
    dropped from the snapshot when [remove_dead] is set. *)
Definition refresh_processes (p : Platform) (pids : list Pid)
    (remove_dead : bool) (sys : System) : System :=
  fold_left
    (fun m pid =>
       match os_process p pid with
       | Some pr => <[pid := pr]> m
       | None => if remove_dead then delete pid m else m
       end)
    pids sys.

(** [system.process(pid)]. *)
Definition process (sys : System) (pid : Pid) : option Process := sys !! pid.

(** ** Formatting *)

Definition digit (d : Z) : ascii := byte (48 + d).

(** [n] written with exactly [w] decimal digits, zero-padded on the left. *)
Fixpoint pad_dec (w : nat) (n : Z) : string :=
  match w with
  | O => EmptyString
  | S w' => String.append (pad_dec w' (n / 10)) (String (digit (n mod 10)) EmptyString)
  end.

Fixpoint dec_aux (fuel : nat) (n : Z) (acc : string) : string :=
  match fuel with
  | O => acc
  | S f =>
      let acc' := String (digit (n mod 10)) acc in
      if n <? 10 then acc' else dec_aux f (n / 10) acc'
  end.

(** [Display] of a non-negative integer below 10^20 (a [u32] or a [usize]). *)
Definition show_dec (n : Z) : string := dec_aux 20 n EmptyString.

(** chrono's [%Y]: four digits for years 0..=9999, otherwise with a sign. *)
Definition fmt_year (y : Z) : string :=
  if (0 <=? y) && (y <=? 9999) then pad_dec 4 y
  else if y <? 0 then String "-" (show_dec (- y))
  else String "+" (show_dec y).

(** [Local::now().format("%Y-%m-%d %H:%M:%S")]. *)
Definition format_timestamp (dt : DateTime) : string :=
  fmt_year (dt_year dt) ++ "-" ++ pad_dec 2 (dt_month dt) ++ "-" ++
  pad_dec 2 (dt_day dt) ++ " " ++ pad_dec 2 (dt_hour dt) ++ ":" ++
  pad_dec 2 (dt_minute dt) ++ ":" ++ pad_dec 2 (dt_second dt).

(** The two [info!] messages of the loop. *)
Definition live_message (timestamp : string) (pid_value : Pid)
    (window_title exe_path : string) : string :=
  timestamp ++ " | 进程ID: " ++ show_dec pid_value ++ " | 窗口标题: " ++
  window_title ++ " | 执行路径: " ++ exe_path.

Definition dead_message (timestamp : string) (pid_value : Pid) : string :=
  timestamp ++ " | 进程ID: " ++ show_dec pid_value ++ " 不存在或已结束".

Definition unknown_path : string := "未知路径".
Definition unknown_window : string := "未知窗口".

(** ** The main loop *)

(** The observable effects of one iteration, in order. *)
Inductive Action :=
  | RefreshProcesses (pids : list Pid) (remove_dead : bool)
  | ProcessLookup (pid : Pid)
  | LogInfo (msg : string)
  | Sleep (millis : Z).

(** The state carried across iterations: [last_hwnd] and [system]. *)
Record State := mkState { last_hwnd : option HWND; system : System }.

Definition initial_state : State := mkState None ∅.

(** One iteration of [loop { ... }] in [main]. *)
Definition loop_iteration (p : Platform) (st : State) : State * list Action :=
  let '(st', acts) :=
    match get_active_window_handle p with
    | Some hwnd =>
        if bool_decide (Some hwnd <> last_hwnd st) then
          let st := mkState (Some hwnd) (system st) in
          match get_process_id p hwnd with
          | Some pid_value =>
              let pid := pid_value in
              let sys := refresh_processes p [pid] true (system st) in
              let st := mkState (last_hwnd st) sys in
              let pre := [RefreshProcesses [pid] true; ProcessLookup pid] in
              match process sys pid with
              | Some process =>
                  let exe_path :=
                    match exe process with
                    | Some path => to_string_lossy path
                    | None => unknown_path
                    end in
                  let window_title :=
                    match get_window_text p hwnd with
                    | Some title => title
                    | None => unknown_window
                    end in
                  let timestamp := format_timestamp (local_now p) in
                  (st, pre ++ [LogInfo (live_message timestamp pid_value
                                          window_title exe_path)])
              | None =>
                  let timestamp := format_timestamp (local_now p) in
                  (st, pre ++ [LogInfo (dead_message timestamp pid_value)])
              end
          | None => (st, [])
          end
        else (st, [])
    | None => (st, [])
    end in
  (st', acts ++ [Sleep 10]).

(** A run of the loop over the successive platform observations: the final
    state and the actions of each iteration. *)
Fixpoint run (ps : list Platform) (st : State) : State * list (list Action) :=
  match ps with
  | [] => (st, [])
  | p :: ps' =>
      let '(st1, acts) := loop_iteration p st in
      let '(st2, rest) := run ps' st1 in
      (st2, acts :: rest)
  end.

Definition state_after (ps : list Platform) (st : State) : State := fst (run ps st).
Definition traces (ps : list Platform) (st : State) : list (list Action) :=
  snd (run ps st).

(** Number of log lines (activity events) among some actions. *)
Fixpoint emitted (acts : list Action) : nat :=
  match acts with
  | [] => O
  | LogInfo _ :: acts' => S (emitted acts')
  | _ :: acts' => emitted acts'
  end.

(** A wide string holding the bytes of an ASCII string. *)
Fixpoint wide (s : string) : wstring :=
  match s with
  | EmptyString => []
  | String c r => Z.of_N (N_of_ascii c) :: wide r
  end.

(** A platform whose foreground window [h] belongs to [pid], has the title
    [title] (reported with its true length), and whose owner is [proc] in
    the OS process table. *)
Definition single_window_platform (h : HWND) (pid : Pid) (title : wstring)
    (proc : option Process) (dt : DateTime) : Platform :=
  mkPlatform h (fun h' => if (h' =? h)%Z then pid else 0)
    (fun h' => if (h' =? h)%Z then N.of_nat (length title) else 0%N)
    (fun h' => if (h' =? h)%Z then title else [])
    (fun pid' => if (pid' =? pid)%Z then proc else None)
    dt.

(** Window 7 of process 4242, "Notepad", run from /bin/notepad. *)
Definition notepad_platform (dt : DateTime) : Platform :=
  single_window_platform 7 4242 (wide "Notepad")
    (Some (mkProcess (Some (wide "/bin/notepad")))) dt.

(** No foreground window: [GetForegroundWindow] returns the null handle. *)
Definition no_window_platform (dt : DateTime) : Platform :=
  mkPlatform 0 (fun _ => 0) (fun _ => 0%N) (fun _ => []) (fun _ => None) dt.

Definition sample_time : DateTime := mkDateTime 2024 3 7 9 5 59.

(** Window 7 of process 4242, whose process has exited. *)
Definition exited_platform (dt : DateTime) : Platform :=
  single_window_platform 7 4242 (wide "Notepad") None dt.

(** Window 7 of process 4242, with no title and no readable executable. *)
Definition untitled_platform (dt : DateTime) : Platform :=
  single_window_platform 7 4242 [] (Some (mkProcess None)) dt.

(** Window 7 whose title grew to "Notepad" after its length was read as 3. *)
Definition grown_title_platform (dt : DateTime) : Platform :=
  mkPlatform 7 (fun h => if (h =? 7)%Z then 4242 else 0)
    (fun h => if (h =? 7)%Z then 3%N else 0%N)
    (fun h => if (h =? 7)%Z then wide "Notepad" else [])
    (fun _ => None) dt.


(** Does a string match a pattern in which ['D'] stands for any decimal
    digit and every other character for itself? *)
Definition is_digit (c : ascii) : bool :=
  (48 <=? N_of_ascii c)%N && (N_of_ascii c <=? 57)%N.

Fixpoint matches_shape (pat s : string) : bool :=
  match pat, s with
  | EmptyString, EmptyString => true
  | String pc pat', String c s' =>
      (if Ascii.eqb pc "D"%char then is_digit c else Ascii.eqb pc c)
      && matches_shape pat' s'
  | _, _ => false
  end.

(** The [YYYY-MM-DD HH:MM:SS] layout. *)
Definition timestamp_shape : string := "DDDD-DD-DD DD:DD:DD".

(** A date and time as chrono produces them. *)
Definition valid_datetime (dt : DateTime) : Prop :=
  0 <= dt_year dt <= 9999 /\ 1 <= dt_month dt <= 12 /\ 1 <= dt_day dt <= 31 /\
  0 <= dt_hour dt < 24 /\ 0 <= dt_minute dt < 60 /\ 0 <= dt_second dt < 60.

Fixpoint ends_with_nul (s : string) : bool :=
  match s with
  | EmptyString => false
  | String c EmptyString => Ascii.eqb c nul
  | String _ r => ends_with_nul r
  end.

Definition is_sleep (a : Action) : bool :=
  match a with Sleep _ => true | _ => false end.

(** A string of [n] NUL bytes. *)
Fixpoint nuls (n : nat) : string :=
  match n with O => EmptyString | S k => String nul (nuls k) end.


(** Every byte of the string is ASCII. *)
Fixpoint ascii_only (s : string) : bool :=
  match s with
  | EmptyString => true
  | String c r => (N_of_ascii c <? 128)%N && ascii_only r
  end.

(** Reading a decimal numeral back: [read_dec_from v s] continues the value
    [v] with the digits of [s]. *)
Fixpoint read_dec_from (v : Z) (s : string) : Z :=
  match s with
  | EmptyString => v
  | String c r => read_dec_from (10 * v + (Z.of_N (N_of_ascii c) - 48)) r
  end.

Definition read_dec (s : string) : Z := read_dec_from 0 s.




(** ** One iteration, case by case *)

Section Iteration.
Variable p : Platform.
Variable st : State.
Let hwnd := GetForegroundWindow p.

Lemma loop_iteration_unchanged :
  last_hwnd st = Some hwnd -> loop_iteration p st = (st, [Sleep 10]).
Proof.
  intros Hl. unfold loop_iteration, get_active_window_handle.
  rewrite bool_decide_eq_false_2; [reflexivity|]. subst hwnd. congruence.
Qed.

Lemma loop_iteration_no_pid :
  last_hwnd st <> Some hwnd -> get_process_id p hwnd = None ->
  loop_iteration p st = (mkState (Some hwnd) (system st), [Sleep 10]).
Proof.
  intros Hl Hp. unfold loop_iteration, get_active_window_handle.
  rewrite bool_decide_eq_true_2 by (subst hwnd; congruence).
  fold hwnd. rewrite Hp. reflexivity.
Qed.

Lemma loop_iteration_live v pr :
  last_hwnd st <> Some hwnd -> get_process_id p hwnd = Some v ->
  process (refresh_processes p [v] true (system st)) v = Some pr ->
  loop_iteration p st =
    (mkState (Some hwnd) (refresh_processes p [v] true (system st)),
     [RefreshProcesses [v] true; ProcessLookup v;
      LogInfo (live_message (format_timestamp (local_now p)) v
                 (match get_window_text p hwnd with
                  | Some title => title | None => unknown_window end)
                 (match exe pr with
                  | Some path => to_string_lossy path | None => unknown_path end));
      Sleep 10]).
Proof.
  intros Hl Hp Hs. unfold loop_iteration, get_active_window_handle.
  rewrite bool_decide_eq_true_2 by (subst hwnd; congruence).
  fold hwnd. rewrite Hp. cbn -[process refresh_processes]. rewrite Hs. reflexivity.
Qed.

Lemma loop_iteration_dead v :
  last_hwnd st <> Some hwnd -> get_process_id p hwnd = Some v ->
  process (refresh_processes p [v] true (system st)) v = None ->
  loop_iteration p st =
    (mkState (Some hwnd) (refresh_processes p [v] true (system st)),
     [RefreshProcesses [v] true; ProcessLookup v;
      LogInfo (dead_message (format_timestamp (local_now p)) v);
      Sleep 10]).
Proof.
  intros Hl Hp Hs. unfold loop_iteration, get_active_window_handle.
  rewrite bool_decide_eq_true_2 by (subst hwnd; congruence).
  fold hwnd. rewrite Hp. cbn -[process refresh_processes]. rewrite Hs. reflexivity.
Qed.

End Iteration.

Ltac iteration_cases p st :=
  let Hl := fresh "Hl" in let Hp := fresh "Hp" in let Hs := fresh "Hs" in
  destruct (decide (last_hwnd st = Some (GetForegroundWindow p))) as [Hl|Hl];
  [ rewrite (loop_iteration_unchanged p st Hl)
  | destruct (get_process_id p (GetForegroundWindow p)) as [v|] eqn:Hp;
    [ destruct (process (refresh_processes p [v] true (system st)) v)
        as [pr|] eqn:Hs;
      [ rewrite (loop_iteration_live p st v pr Hl Hp Hs)
      | rewrite (loop_iteration_dead p st v Hl Hp Hs) ]
    | rewrite (loop_iteration_no_pid p st Hl Hp) ] ].

Lemma loop_iteration_emitted_le_1 p st :
  (emitted (snd (loop_iteration p st)) <= 1)%nat.
Proof. iteration_cases p st; simpl; lia. Qed.

Lemma run_unchanged ps st :
  last_hwnd st <> None ->
  Forall (fun q => last_hwnd st = Some (GetForegroundWindow q)) ps ->
  run ps st = (st, map (fun _ => [Sleep 10]) ps).
Proof.
  revert st. induction ps as [|q ps IH]; intros st Hn Hall; [reflexivity|].
  inversion Hall as [|? ? Hq Hrest]; subst. simpl.
  rewrite (loop_iteration_unchanged q st Hq). rewrite IH by assumption.
  reflexivity.
Qed.

Lemma traces_lookup ps st i tr q :
  ps !! i = Some q -> traces ps st !! i = Some tr ->
  tr = snd (loop_iteration q (state_after (take i ps) st)).
Proof.
  unfold traces, state_after. revert st i.
  induction ps as [|q0 ps IH]; intros st i Hq Htr; [done|].
  destruct i as [|i]; simpl in *.
  - destruct (loop_iteration q0 st) as [st1 acts] eqn:E.
    destruct (run ps st1) as [st2 rest]. simpl in Htr.
    injection Hq as <-. injection Htr as <-. rewrite E. reflexivity.
  - destruct (loop_iteration q0 st) as [st1 acts] eqn:E.
    destruct (run ps st1) as [st2 rest] eqn:E2. simpl in Htr.
    specialize (IH st1 i Hq). rewrite E2 in IH. simpl in IH.
    rewrite (IH Htr). destruct (run (take i ps) st1). reflexivity.
Qed.

Lemma get_process_id_null p : get_process_id p 0 = None.
Proof. reflexivity. Qed.

Lemma loop_iteration_last p st :
  last_hwnd (fst (loop_iteration p st)) = Some (GetForegroundWindow p).
Proof. iteration_cases p st; simpl; congruence. Qed.

Lemma state_after_app xs ys st :
  state_after (xs ++ ys) st = state_after ys (state_after xs st).
Proof.
  unfold state_after. revert st. induction xs as [|x xs IH]; intros st; [reflexivity|].
  simpl. destruct (loop_iteration x st) as [st1 acts].
  specialize (IH st1). destruct (run (xs ++ ys) st1), (run xs st1). simpl in *.
  rewrite IH. destruct (run ys s0). reflexivity.
Qed.

Lemma is_digit_digit n : is_digit (digit (n mod 10)) = true.
Proof.
  assert (H : 0 <= n mod 10 < 10) by (apply Z.mod_pos_bound; lia).
  destruct (n mod 10) as [|d|d] eqn:E; [reflexivity| |lia].
  assert (Hd : Z.pos d = 1 \/ Z.pos d = 2 \/ Z.pos d = 3 \/ Z.pos d = 4 \/
               Z.pos d = 5 \/ Z.pos d = 6 \/ Z.pos d = 7 \/ Z.pos d = 8 \/
               Z.pos d = 9) by lia.
  repeat destruct Hd as [Hd|Hd]; rewrite Hd; reflexivity.
Qed.

Lemma format_timestamp_shape dt :
  0 <= dt_year dt <= 9999 ->
  matches_shape timestamp_shape (format_timestamp dt) = true.
Proof.
  intros Hy. unfold format_timestamp, fmt_year.
  replace ((0 <=? dt_year dt) && (dt_year dt <=? 9999)) with true
    by (symmetry; apply andb_true_intro; split; apply Z.leb_le; lia).
  cbv beta iota fix zeta delta [String.append pad_dec matches_shape timestamp_shape
    Ascii.eqb Bool.eqb andb].
  rewrite !is_digit_digit. reflexivity.
Qed.

Lemma trim_end_nul_no_trailing s : ends_with_nul (trim_end_nul s) = false.
Proof.
  induction s as [|c r IH]; [reflexivity|]. simpl.
  destruct (trim_end_nul r) as [|c' r'] eqn:E.
  - destruct (Ascii.eqb c nul) eqn:Ec; simpl; [reflexivity|exact Ec].
  - exact IH.
Qed.

Lemma get_window_text_success p hwnd s :
  get_window_text p hwnd = Some s ->
  s = trim_end_nul (from_utf16_lossy
        (firstn (N.to_nat (window_text_length p hwnd)) (window_text p hwnd))).
Proof.
  unfold get_window_text, GetWindowTextLengthW.
  destruct (Z.of_N (window_text_length p hwnd) + 1 =? 0) eqn:E0;
    [apply Z.eqb_eq in E0; lia|].
  replace (Z.to_nat (Z.of_N (window_text_length p hwnd) + 1))
    with (S (N.to_nat (window_text_length p hwnd))) by lia.
  unfold GetWindowTextW. rewrite repeat_length.
  set (copied := firstn (N.to_nat (window_text_length p hwnd)) (window_text p hwnd)).
  destruct (Z.of_nat (length copied) =? 0); [discriminate|].
  intros H. injection H as <-. rewrite Nat2Z.id, take_app_length. reflexivity.
Qed.

(** ** Claims *)

(** C1 (as stated, refuted): "an event is emitted iff the foreground handle
    differs from LastSeenHandle".  At start-up with no foreground window the
    null handle differs from [None], yet nothing is logged, because no owner
    pid resolves for it. *)
Lemma C1_counterexample :
  last_hwnd initial_state <> Some (GetForegroundWindow (no_window_platform sample_time)) /\
  emitted (snd (loop_iteration (no_window_platform sample_time) initial_state)) = O.
Proof. split; [discriminate | reflexivity]. Qed.

(** C1 (amended): a poll logs at most one event, and it logs one exactly
    when the foreground handle differs from LastSeenHandle and the handle's
    owner pid resolves; in particular a poll observing LastSeenHandle never
    logs. *)
Theorem C1_emitted_iff_changed_and_pid p st :
  (emitted (snd (loop_iteration p st)) = 1%nat <->
   last_hwnd st <> Some (GetForegroundWindow p) /\
   get_process_id p (GetForegroundWindow p) <> None) /\
  (emitted (snd (loop_iteration p st)) <= 1)%nat.
Proof.
  split; [|apply loop_iteration_emitted_le_1].
  iteration_cases p st; simpl; split; intros H; try done;
    try (destruct H as [H1 H2]; congruence).
Qed.

(** C3: when the handle changed and its owner pid [v] resolves but the
    snapshot has no process [v] after the refresh, the single line logged
    is "<timestamp> | 进程ID: <v> 不存在或已结束". *)
Theorem C3_dead_process_event p st v :
  last_hwnd st <> Some (GetForegroundWindow p) ->
  get_process_id p (GetForegroundWindow p) = Some v ->
  process (refresh_processes p [v] true (system st)) v = None ->
  snd (loop_iteration p st) =
    [RefreshProcesses [v] true; ProcessLookup v;
     LogInfo (format_timestamp (local_now p) ++ " | 进程ID: " ++ show_dec v ++
              " 不存在或已结束");
     Sleep 10].
Proof. intros Hl Hp Hs. rewrite (loop_iteration_dead p st v Hl Hp Hs). reflexivity. Qed.

(** C6: when no owner pid resolves for the foreground handle, the poll
    logs nothing (and touches no snapshot): it only sleeps. *)
Theorem C6_no_pid_no_event p st :
  get_process_id p (GetForegroundWindow p) = None ->
  snd (loop_iteration p st) = [Sleep 10] /\
  emitted (snd (loop_iteration p st)) = O.
Proof.
  intros Hp. destruct (decide (last_hwnd st = Some (GetForegroundWindow p))) as [Hl|Hl].
  - rewrite (loop_iteration_unchanged p st Hl). done.
  - rewrite (loop_iteration_no_pid p st Hl Hp). done.
Qed.

(** C9: every iteration ends with [sleep(Duration::from_millis(10))], its
    only sleep, whatever happened before; so does every iteration of a run. *)
Theorem C9_iteration_ends_with_sleep p st ps :
  (exists pre, snd (loop_iteration p st) = pre ++ [Sleep 10] /\
               forallb (fun a => negb (is_sleep a)) pre = true) /\
  Forall (fun tr => exists pre, tr = pre ++ [Sleep 10] /\
                     forallb (fun a => negb (is_sleep a)) pre = true)
    (traces ps st).
Proof.
  assert (Hone : forall p st, exists pre, snd (loop_iteration p st) = pre ++ [Sleep 10] /\
               forallb (fun a => negb (is_sleep a)) pre = true).
  { intros q s. iteration_cases q s; simpl;
      [exists [] | eexists [_; _; _] | eexists [_; _; _] | exists []];
      split; reflexivity. }
  split; [apply Hone|].
  unfold traces. revert st. induction ps as [|q ps IH]; intros st; simpl; [constructor|].
  destruct (loop_iteration q st) as [st1 acts] eqn:E.
  specialize (IH st1). destruct (run ps st1) as [st2 rest]. simpl in *.
  constructor; [|exact IH].
  destruct (Hone q st) as (pre & Hpre & Hns). rewrite E in Hpre. eauto.
Qed.

(** C10: when the handle changed but no owner pid resolves, LastSeenHandle
    still becomes the new handle, so no later poll that keeps observing the
    same handle logs an event. *)
Theorem C10_last_updated_without_pid p st ps :
  last_hwnd st <> Some (GetForegroundWindow p) ->
  get_process_id p (GetForegroundWindow p) = None ->
  last_hwnd (fst (loop_iteration p st)) = Some (GetForegroundWindow p) /\
  (Forall (fun q => GetForegroundWindow q = GetForegroundWindow p) ps ->
   Forall (fun tr => emitted tr = O) (traces ps (fst (loop_iteration p st)))).
Proof.
  intros Hl Hp. rewrite (loop_iteration_no_pid p st Hl Hp). simpl.
  split; [reflexivity|]. intros Hall.
  unfold traces. rewrite run_unchanged; simpl.
  - apply Forall_forall. intros tr Htr. apply list_elem_of_fmap in Htr.
    destruct Htr as (? & -> & _). reflexivity.
  - discriminate.
  - eapply Forall_impl; [exact Hall|]. intros q Hq. simpl. congruence.
Qed.

(** C2: over any run, each poll logs at most one event; a poll whose handle
    equals LastSeenHandle logs none; and a poll observing the same handle as
    the poll just before it logs none, so within a maximal run of polls
    observing one handle only the first poll can log. *)
Theorem C2_one_event_per_run (ps : list Platform) st i q tr :
  ps !! i = Some q -> traces ps st !! i = Some tr ->
  (emitted tr <= 1)%nat /\
  (last_hwnd (state_after (take i ps) st) = Some (GetForegroundWindow q) ->
   emitted tr = O) /\
  (forall j q0, i = S j -> ps !! j = Some q0 ->
   GetForegroundWindow q0 = GetForegroundWindow q -> emitted tr = O).
Proof.
  intros Hq Htr. rewrite (traces_lookup ps st i tr q Hq Htr).
  split; [apply loop_iteration_emitted_le_1|]. split.
  - intros Hl. rewrite (loop_iteration_unchanged q _ Hl). reflexivity.
  - intros j q0 -> Hq0 Heq.
    rewrite (take_S_r ps j q0 Hq0), state_after_app.
    rewrite (loop_iteration_unchanged q); [reflexivity|].
    unfold state_after at 1. simpl.
    destruct (loop_iteration q0 (state_after (take j ps) st)) as [s1 a1] eqn:E.
    simpl. pose proof (loop_iteration_last q0 (state_after (take j ps) st)) as HL.
    rewrite E in HL. simpl in HL. congruence.
Qed.

(** C4: a changed handle owned by pid 4242, whose process is alive with
    executable path "/bin/notepad" and whose title resolves to "Notepad",
    is logged as exactly "<timestamp> | 进程ID: 4242 | 窗口标题: Notepad |
    执行路径: /bin/notepad", the timestamp having the YYYY-MM-DD HH:MM:SS
    layout. *)
Theorem C4_notepad_round_trip p st pr :
  last_hwnd st <> Some (GetForegroundWindow p) ->
  get_process_id p (GetForegroundWindow p) = Some 4242 ->
  process (refresh_processes p [4242] true (system st)) 4242 = Some pr ->
  option_map to_string_lossy (exe pr) = Some "/bin/notepad" ->
  get_window_text p (GetForegroundWindow p) = Some "Notepad" ->
  valid_datetime (local_now p) ->
  snd (loop_iteration p st) =
    [RefreshProcesses [4242] true; ProcessLookup 4242;
     LogInfo (format_timestamp (local_now p) ++
              " | 进程ID: 4242 | 窗口标题: Notepad | 执行路径: /bin/notepad");
     Sleep 10] /\
  matches_shape timestamp_shape (format_timestamp (local_now p)) = true.
Proof.
  intros Hl Hp Hs He Ht Hdt. split.
  - rewrite (loop_iteration_live p st 4242 pr Hl Hp Hs), Ht.
    destruct (exe pr) as [path|]; [|discriminate].
    injection He as He. rewrite He. reflexivity.
  - apply format_timestamp_shape. apply Hdt.
Qed.

(** C5: [get_window_text] returns [None] when the reported title length is
    zero, and when [GetWindowTextW] copies zero characters; when it returns
    a string, that string is the decoded title (up to the reported length)
    with its trailing NUL characters trimmed, so it ends in no NUL. *)
Theorem C5_get_window_text_contract p hwnd :
  (window_text_length p hwnd = 0%N -> get_window_text p hwnd = None) /\
  (fst (GetWindowTextW p hwnd
          (repeat 0 (Z.to_nat (GetWindowTextLengthW p hwnd + 1)))) = 0 ->
   get_window_text p hwnd = None) /\
  (forall s, get_window_text p hwnd = Some s ->
   s = trim_end_nul (from_utf16_lossy
         (firstn (N.to_nat (window_text_length p hwnd)) (window_text p hwnd))) /\
   ends_with_nul s = false).
Proof.
  split; [|split].
  - intros H0. unfold get_window_text, GetWindowTextLengthW. rewrite H0. reflexivity.
  - unfold get_window_text.
    destruct (GetWindowTextLengthW p hwnd + 1 =? 0); [reflexivity|].
    destruct (GetWindowTextW p hwnd _) as [copied buffer]. simpl.
    intros ->. reflexivity.
  - intros s Hs. pose proof (get_window_text_success p hwnd s Hs) as E.
    split; [exact E|]. rewrite E. apply trim_end_nul_no_trailing.
Qed.

(** C7: in a live-process event, an unresolved title is logged as the
    placeholder "未知窗口" and an unavailable executable path as "未知路径". *)
Theorem C7_placeholders p st v pr :
  last_hwnd st <> Some (GetForegroundWindow p) ->
  get_process_id p (GetForegroundWindow p) = Some v ->
  process (refresh_processes p [v] true (system st)) v = Some pr ->
  emitted (snd (loop_iteration p st)) = 1%nat /\
  (get_window_text p (GetForegroundWindow p) = None ->
   exists path, In (LogInfo (format_timestamp (local_now p) ++ " | 进程ID: " ++
                  show_dec v ++ " | 窗口标题: 未知窗口 | 执行路径: " ++ path))
                (snd (loop_iteration p st))) /\
  (exe pr = None ->
   exists title, In (LogInfo (format_timestamp (local_now p) ++ " | 进程ID: " ++
                  show_dec v ++ " | 窗口标题: " ++ title ++ " | 执行路径: 未知路径"))
                (snd (loop_iteration p st))).
Proof.
  intros Hl Hp Hs. rewrite (loop_iteration_live p st v pr Hl Hp Hs). simpl.
  split; [reflexivity|split].
  - intros Ht. rewrite Ht. eexists. right; right; left. reflexivity.
  - intros He. rewrite He. eexists. right; right; left. reflexivity.
Qed.

(** C8: in every iteration, each snapshot lookup of a pid [v] comes right
    after a refresh of exactly [[v]] with remove-dead set; every refresh is
    of that form for the resolved owner pid of a changed handle; a changed
    handle with a resolved pid is always refreshed; and a poll with no
    foreground window (the null handle) or an unchanged handle refreshes
    nothing. *)
Theorem C8_targeted_refresh p st :
  (forall i v, snd (loop_iteration p st) !! i = Some (ProcessLookup v) ->
   exists j, i = S j /\
             snd (loop_iteration p st) !! j = Some (RefreshProcesses [v] true)) /\
  (forall pids b, In (RefreshProcesses pids b) (snd (loop_iteration p st)) ->
   exists v, pids = [v] /\ b = true /\
             last_hwnd st <> Some (GetForegroundWindow p) /\
             get_process_id p (GetForegroundWindow p) = Some v) /\
  (forall v, last_hwnd st <> Some (GetForegroundWindow p) ->
   get_process_id p (GetForegroundWindow p) = Some v ->
   In (RefreshProcesses [v] true) (snd (loop_iteration p st))) /\
  (GetForegroundWindow p = 0 \/ last_hwnd st = Some (GetForegroundWindow p) ->
   forall pids b, ~ In (RefreshProcesses pids b) (snd (loop_iteration p st))).
Proof.
  assert (Hrefresh : forall pids b,
    In (RefreshProcesses pids b) (snd (loop_iteration p st)) ->
    exists v, pids = [v] /\ b = true /\
              last_hwnd st <> Some (GetForegroundWindow p) /\
              get_process_id p (GetForegroundWindow p) = Some v).
  { intros pids b. iteration_cases p st; simpl; intros Hin;
      repeat destruct Hin as [Hin|Hin]; try discriminate; try contradiction;
      injection Hin as <- <-; eauto. }
  split; [|split; [exact Hrefresh|split]].
  - intros i w. iteration_cases p st; simpl; intros Hi;
      destruct i as [|[|[|[|i]]]]; simpl in Hi; try discriminate;
      injection Hi as <-; exists 0%nat; split; reflexivity.
  - intros v Hl Hp. destruct (process (refresh_processes p [v] true (system st)) v)
      as [pr|] eqn:Hs.
    + rewrite (loop_iteration_live p st v pr Hl Hp Hs). simpl. auto.
    + rewrite (loop_iteration_dead p st v Hl Hp Hs). simpl. auto.
  - intros Hnone pids b Hin. destruct (Hrefresh pids b Hin) as (v & _ & _ & Hl & Hp).
    destruct Hnone as [H0|H0].
    + rewrite H0, get_process_id_null in Hp. discriminate.
    + contradiction.
Qed.

(** ** Witnesses: the hypotheses of the claims hold at concrete polls *)

Lemma C2_witness :
  [notepad_platform sample_time; notepad_platform sample_time] !! 1%nat
    = Some (notepad_platform sample_time) /\
  traces [notepad_platform sample_time; notepad_platform sample_time]
    initial_state !! 1%nat = Some [Sleep 10] /\
  [notepad_platform sample_time; notepad_platform sample_time] !! 0%nat
    = Some (notepad_platform sample_time) /\
  emitted [Sleep 10] = O.
Proof.
  split; [reflexivity|]. split; [vm_compute; reflexivity|]. split; [reflexivity|].
  apply (proj2 (proj2 (C2_one_event_per_run
           [notepad_platform sample_time; notepad_platform sample_time]
           initial_state 1%nat (notepad_platform sample_time) [Sleep 10]
           eq_refl ltac:(vm_compute; reflexivity)))
           0%nat (notepad_platform sample_time) eq_refl eq_refl eq_refl).
Defined.

Lemma C3_witness :
  last_hwnd initial_state <> Some (GetForegroundWindow (exited_platform sample_time)) /\
  get_process_id (exited_platform sample_time)
    (GetForegroundWindow (exited_platform sample_time)) = Some 4242 /\
  process (refresh_processes (exited_platform sample_time) [4242] true
             (system initial_state)) 4242 = None /\
  snd (loop_iteration (exited_platform sample_time) initial_state) =
    [RefreshProcesses [4242] true; ProcessLookup 4242;
     LogInfo (format_timestamp sample_time ++ " | 进程ID: " ++ show_dec 4242 ++
              " 不存在或已结束");
     Sleep 10].
Proof.
  split; [discriminate|]. split; [reflexivity|]. split; [vm_compute; reflexivity|].
  apply C3_dead_process_event; [discriminate | reflexivity | vm_compute; reflexivity].
Defined.

Lemma C4_witness :
  valid_datetime sample_time /\
  snd (loop_iteration (notepad_platform sample_time) initial_state) =
    [RefreshProcesses [4242] true; ProcessLookup 4242;
     LogInfo (format_timestamp sample_time ++
              " | 进程ID: 4242 | 窗口标题: Notepad | 执行路径: /bin/notepad");
     Sleep 10] /\
  matches_shape timestamp_shape (format_timestamp sample_time) = true.
Proof.
  split; [unfold valid_datetime; simpl; lia|].
  apply (C4_notepad_round_trip (notepad_platform sample_time) initial_state
           (mkProcess (Some (wide "/bin/notepad"))));
    [discriminate | reflexivity | vm_compute; reflexivity | reflexivity
    | vm_compute; reflexivity | unfold valid_datetime; simpl; lia].
Defined.

Lemma C5_witness :
  window_text_length (untitled_platform sample_time) 7 = 0%N /\
  get_window_text (untitled_platform sample_time) 7 = None /\
  get_window_text (notepad_platform sample_time) 7 = Some "Notepad" /\
  ends_with_nul "Notepad" = false.
Proof.
  split; [reflexivity|]. split.
  - apply (proj1 (C5_get_window_text_contract (untitled_platform sample_time) 7)).
    reflexivity.
  - split; [vm_compute; reflexivity|].
    apply (proj2 (proj2 (proj2 (C5_get_window_text_contract
             (notepad_platform sample_time) 7)) "Notepad"
             ltac:(vm_compute; reflexivity))).
Defined.

Lemma C6_witness :
  get_process_id (no_window_platform sample_time)
    (GetForegroundWindow (no_window_platform sample_time)) = None /\
  snd (loop_iteration (no_window_platform sample_time) initial_state) = [Sleep 10].
Proof.
  split; [reflexivity|].
  apply (proj1 (C6_no_pid_no_event (no_window_platform sample_time) initial_state
                  eq_refl)).
Defined.

Lemma C7_witness :
  get_window_text (untitled_platform sample_time) 7 = None /\
  exe (mkProcess None) = None /\
  emitted (snd (loop_iteration (untitled_platform sample_time) initial_state)) = 1%nat.
Proof.
  split; [vm_compute; reflexivity|]. split; [reflexivity|].
  apply (proj1 (C7_placeholders (untitled_platform sample_time) initial_state 4242
                  (mkProcess None) ltac:(discriminate) eq_refl
                  ltac:(vm_compute; reflexivity))).
Defined.

Lemma C8_witness :
  In (RefreshProcesses [4242] true)
     (snd (loop_iteration (notepad_platform sample_time) initial_state)) /\
  ~ In (RefreshProcesses [0] true)
       (snd (loop_iteration (no_window_platform sample_time) initial_state)).
Proof.
  split.
  - apply (proj1 (proj2 (proj2 (C8_targeted_refresh
             (notepad_platform sample_time) initial_state))) 4242);
      [discriminate | reflexivity].
  - apply (proj2 (proj2 (proj2 (C8_targeted_refresh
             (no_window_platform sample_time) initial_state)))).
    left; reflexivity.
Defined.

Lemma C10_witness :
  last_hwnd (fst (loop_iteration (no_window_platform sample_time) initial_state))
    = Some 0 /\
  Forall (fun tr => emitted tr = O)
    (traces [no_window_platform sample_time; no_window_platform sample_time]
       (fst (loop_iteration (no_window_platform sample_time) initial_state))).
Proof.
  destruct (C10_last_updated_without_pid (no_window_platform sample_time)
              initial_state
              [no_window_platform sample_time; no_window_platform sample_time]
              ltac:(discriminate) eq_refl) as [H1 H2].
  split; [exact H1|]. apply H2. repeat constructor.
Defined.

Lemma C1_witness :
  emitted (snd (loop_iteration (notepad_platform sample_time) initial_state)) = 1%nat.
Proof.
  apply (proj2 (proj1 (C1_emitted_iff_changed_and_pid
                         (notepad_platform sample_time) initial_state))).
  split; discriminate.
Defined.

(** ** Further properties of main.rs *)

Lemma get_window_text_eq p hwnd :
  get_window_text p hwnd =
    match firstn (N.to_nat (window_text_length p hwnd)) (window_text p hwnd) with
    | [] => None
    | t => Some (trim_end_nul (from_utf16_lossy t))
    end.
Proof.
  unfold get_window_text, GetWindowTextLengthW.
  destruct (Z.of_N (window_text_length p hwnd) + 1 =? 0) eqn:E0;
    [apply Z.eqb_eq in E0; lia|].
  replace (Z.to_nat (Z.of_N (window_text_length p hwnd) + 1))
    with (S (N.to_nat (window_text_length p hwnd))) by lia.
  unfold GetWindowTextW. rewrite repeat_length.
  destruct (firstn (N.to_nat (window_text_length p hwnd)) (window_text p hwnd))
    as [|w ws] eqn:E; [reflexivity|].
  rewrite Nat2Z.id, take_app_length.
  destruct (Z.of_nat (length (w :: ws)) =? 0) eqn:Ez;
    [apply Z.eqb_eq in Ez; simpl in Ez; lia|reflexivity].
Qed.


(** X2: [get_window_text] returns [None] exactly when the reported length is
    zero or the window's title is empty. *)
Theorem X2_get_window_text_none_iff p hwnd :
  get_window_text p hwnd = None <->
  window_text_length p hwnd = 0%N \/ window_text p hwnd = [].
Proof.
  rewrite get_window_text_eq.
  destruct (window_text p hwnd) as [|w ws]; [rewrite firstn_nil; tauto|].
  destruct (N.to_nat (window_text_length p hwnd)) as [|n] eqn:E; simpl.
  - split; [intros _; left; lia|reflexivity].
  - split; [discriminate|]. intros [H|H]; [lia|discriminate].
Qed.

(** X3: a title that grew after [GetWindowTextLengthW] is cut to the reported
    length; a title no longer than the reported length is returned whole,
    decoded and without its trailing NULs. *)
Theorem X3_get_window_text_truncates p hwnd :
  window_text p hwnd <> [] -> window_text_length p hwnd <> 0%N ->
  get_window_text p hwnd =
    Some (trim_end_nul (from_utf16_lossy
      (firstn (N.to_nat (window_text_length p hwnd)) (window_text p hwnd)))) /\
  ((length (window_text p hwnd) <= N.to_nat (window_text_length p hwnd))%nat ->
   get_window_text p hwnd =
     Some (trim_end_nul (from_utf16_lossy (window_text p hwnd)))).
Proof.
  intros Ht Hl. rewrite get_window_text_eq.
  destruct (firstn (N.to_nat (window_text_length p hwnd)) (window_text p hwnd))
    eqn:E.
  - apply (f_equal length) in E. rewrite length_firstn in E.
    destruct (window_text p hwnd); [done|]. simpl in E. lia.
  - split; [reflexivity|]. intros Hle. rewrite <- E, firstn_all2 by lia.
    reflexivity.
Qed.






Lemma trim_end_nul_id s : ends_with_nul s = false -> trim_end_nul s = s.
Proof.
  induction s as [|c r IH]; [reflexivity|]. intros H.
  change (trim_end_nul (String c r)) with
    (match trim_end_nul r with
     | EmptyString => if Ascii.eqb c nul then EmptyString else String c (trim_end_nul r)
     | _ => String c (trim_end_nul r)
     end).
  destruct r as [|c' r'].
  - simpl in *. rewrite H. reflexivity.
  - change (ends_with_nul (String c' r') = false) in H.
    rewrite (IH H). reflexivity.
Qed.

(** X5: [trim_end_matches('\u{0}')] removes exactly a run of trailing NULs:
    the input is the result followed by NUL bytes, and trimming twice is
    trimming once. *)
Theorem X5_trim_end_nul_spec s :
  (exists n, s = String.append (trim_end_nul s) (nuls n)) /\
  trim_end_nul (trim_end_nul s) = trim_end_nul s.
Proof.
  split; [|apply trim_end_nul_id, trim_end_nul_no_trailing].
  induction s as [|c r [n IH]]; [exists O; reflexivity|]. simpl.
  destruct (trim_end_nul r) as [|c' r'] eqn:E.
  - destruct (Ascii.eqb c nul) eqn:Ec.
    + apply Ascii.eqb_eq in Ec. subst c. exists (S n). simpl. rewrite IH. reflexivity.
    + exists n. simpl. rewrite IH at 1. reflexivity.
  - exists n. simpl. rewrite IH at 1. reflexivity.
Qed.



(** X7: an ASCII title or path round-trips through the wide-string
    conversions: [from_utf16_lossy] (and so [to_string_lossy]) of its UTF-16
    units is the string itself. *)
Theorem X7_ascii_round_trip s :
  ascii_only s = true -> from_utf16_lossy (wide s) = s /\ to_string_lossy (wide s) = s.
Proof.
  unfold to_string_lossy. cut (ascii_only s = true -> from_utf16_lossy (wide s) = s).
  { intros H Ha. split; apply H; exact Ha. }
  induction s as [|c r IH]; [reflexivity|]. simpl. intros H.
  apply andb_true_iff in H as [Hc Hr]. apply N.ltb_lt in Hc.
  unfold from_utf16_lossy in *. simpl.
  unfold is_high_surrogate, is_low_surrogate.
  replace (55296 <=? Z.of_N (N_of_ascii c)) with false by lia.
  replace (56320 <=? Z.of_N (N_of_ascii c)) with false by lia. simpl.
  unfold encode_utf8. replace (Z.of_N (N_of_ascii c) <? 128) with true by lia.
  simpl. rewrite IH by exact Hr. unfold byte. rewrite N2Z.id, ascii_N_embedding.
  reflexivity.
Qed.

Lemma N_of_ascii_digit d : 0 <= d < 10 -> Z.of_N (N_of_ascii (digit d)) = 48 + d.
Proof.
  intros Hd. unfold digit, byte. rewrite N_ascii_embedding by lia. lia.
Qed.

Lemma dec_aux_read fuel n acc :
  (1 <= fuel)%nat -> 0 <= n < 10 ^ Z.of_nat fuel ->
  read_dec_from 0 (dec_aux fuel n acc) = read_dec_from n acc.
Proof.
  revert n acc. induction fuel as [|f IH]; intros n acc Hf Hn; [lia|].
  assert (Hm : 0 <= n mod 10 < 10) by (apply Z.mod_pos_bound; lia).
  simpl. destruct (n <? 10) eqn:E.
  - apply Z.ltb_lt in E. simpl. rewrite N_of_ascii_digit by exact Hm.
    rewrite Z.mod_small by lia. f_equal. lia.
  - apply Z.ltb_ge in E. destruct f as [|f]; [simpl in Hn; lia|].
    rewrite IH; [|lia|].
    + simpl. rewrite N_of_ascii_digit by exact Hm. f_equal.
      pose proof (Z.div_mod n 10). lia.
    + split; [apply Z.div_pos; lia|].
      apply Z.div_lt_upper_bound; [lia|].
      replace (Z.of_nat (S (S f))) with (1 + Z.of_nat (S f)) in Hn by lia.
      rewrite Z.pow_add_r in Hn by lia. lia.
Qed.

(** X8: the pid printed in a log line reads back as the pid: for every
    [u32] value, parsing the decimal digits of [show_dec] gives it back. *)
Theorem X8_show_dec_round_trip n :
  0 <= n < 2 ^ 32 -> read_dec (show_dec n) = n.
Proof.
  intros Hn. unfold read_dec, show_dec. rewrite dec_aux_read; [reflexivity|lia|].
  split; [lia|]. apply (Z.lt_le_trans _ (2 ^ 32)); [lia|]. vm_compute. discriminate.
Qed.

Lemma refresh_processes_single p v sys :
  process (refresh_processes p [v] true sys) v = os_process p v /\
  (forall q, q <> v -> process (refresh_processes p [v] true sys) q = process sys q).
Proof.
  unfold process, refresh_processes. simpl.
  destruct (os_process p v) as [pr|] eqn:E; split.
  - apply lookup_insert_eq.
  - intros q Hq. apply lookup_insert_ne. congruence.
  - apply lookup_delete_eq.
  - intros q Hq. apply lookup_delete_ne. congruence.
Qed.


(** X10: what a poll logs does not depend on the snapshot left by earlier
    polls: for a changed handle whose owner pid [v] resolves, the line is
    the live one exactly when the OS has process [v] now (with the path the
    OS reports now), and the dead-process one when it has not. *)
Theorem X10_event_from_current_os p st v :
  last_hwnd st <> Some (GetForegroundWindow p) ->
  get_process_id p (GetForegroundWindow p) = Some v ->
  snd (loop_iteration p st) =
    [RefreshProcesses [v] true; ProcessLookup v;
     LogInfo (match os_process p v with
              | Some pr =>
                  live_message (format_timestamp (local_now p)) v
                    (match get_window_text p (GetForegroundWindow p) with
                     | Some title => title | None => unknown_window end)
                    (match exe pr with
                     | Some path => to_string_lossy path | None => unknown_path end)
              | None => dead_message (format_timestamp (local_now p)) v
              end);
     Sleep 10] /\
  (forall sys, snd (loop_iteration p (mkState (last_hwnd st) sys)) =
               snd (loop_iteration p st)).
Proof.
  intros Hl Hp.
  assert (Hall : forall sys, snd (loop_iteration p (mkState (last_hwnd st) sys)) =
    [RefreshProcesses [v] true; ProcessLookup v;
     LogInfo (match os_process p v with
              | Some pr =>
                  live_message (format_timestamp (local_now p)) v
                    (match get_window_text p (GetForegroundWindow p) with
                     | Some title => title | None => unknown_window end)
                    (match exe pr with
                     | Some path => to_string_lossy path | None => unknown_path end)
              | None => dead_message (format_timestamp (local_now p)) v
              end);
     Sleep 10]).
  { intros sys. pose proof (proj1 (refresh_processes_single p v sys)) as Hr.
    destruct (os_process p v) as [pr|] eqn:Eo.
    - rewrite (loop_iteration_live p (mkState (last_hwnd st) sys) v pr Hl Hp Hr).
      reflexivity.
    - rewrite (loop_iteration_dead p (mkState (last_hwnd st) sys) v Hl Hp Hr).
      reflexivity. }
  split.
  - destruct st as [l sys]. apply (Hall sys).
  - intros sys. rewrite Hall. destruct st as [l sys0]. symmetry. apply (Hall sys0).
Qed.

(** X11: after any run ending with a poll [q], LastSeenHandle is the handle
    [q] observed, whatever happened before. *)
Theorem X11_last_hwnd_after_run ps q st :
  last_hwnd (state_after (ps ++ [q]) st) = Some (GetForegroundWindow q).
Proof.
  rewrite state_after_app. unfold state_after at 1. simpl.
  destruct (loop_iteration q (state_after ps st)) as [s1 a1] eqn:E. simpl.
  pose proof (loop_iteration_last q (state_after ps st)) as HL.
  rewrite E in HL. exact HL.
Qed.

(** X12: a run of polls that all observe the same handle logs at most one
    event in total, whatever the state it starts from. *)
Theorem X12_same_handle_run_at_most_one (ps : list Platform) st h :
  Forall (fun q => GetForegroundWindow q = h) ps ->
  (sum_list_with emitted (traces ps st) <= 1)%nat.
Proof.
  intros Hall. destruct ps as [|q ps]; [simpl; lia|].
  inversion Hall as [|? ? Hq Hrest]; subst.
  unfold traces. simpl.
  destruct (loop_iteration q st) as [st1 acts] eqn:E.
  assert (Hl1 : last_hwnd st1 = Some (GetForegroundWindow q)).
  { pose proof (loop_iteration_last q st) as HL. rewrite E in HL. exact HL. }
  assert (He : (emitted acts <= 1)%nat).
  { pose proof (loop_iteration_emitted_le_1 q st) as H. rewrite E in H. exact H. }
  rewrite run_unchanged; [|congruence|].
  - simpl. assert (Hz : forall l : list Platform,
      sum_list_with emitted (map (fun _ => [Sleep 10]) l) = O).
    { induction l; simpl; auto. }
    rewrite Hz. lia.
  - eapply Forall_impl; [exact Hrest|]. intros q' Hq'. simpl in Hq'. congruence.
Qed.

(** X13: every line a poll logs starts with the timestamp and the pid of a
    real owner: the foreground handle is not null, its owner pid is not 0,
    and the line begins "<timestamp> | 进程ID: <that pid>". *)
Theorem X13_event_carries_owner_pid p st msg :
  In (LogInfo msg) (snd (loop_iteration p st)) ->
  GetForegroundWindow p <> 0 /\ window_owner p (GetForegroundWindow p) <> 0 /\
  exists rest : string, msg = (format_timestamp (local_now p) ++ " | 进程ID: " ++
                     show_dec (window_owner p (GetForegroundWindow p)) ++ rest)%string.
Proof.
  iteration_cases p st; simpl; intros Hin;
    repeat destruct Hin as [Hin|Hin]; try discriminate; try contradiction;
    injection Hin as <-;
    (assert (Hv : v <> 0 /\ GetForegroundWindow p <> 0 /\
                  v = window_owner p (GetForegroundWindow p))
      by (unfold get_process_id, GetWindowThreadProcessId in Hp;
          destruct (GetForegroundWindow p =? 0) eqn:Eh; simpl in Hp; [discriminate|];
          destruct (window_owner p (GetForegroundWindow p) =? 0) eqn:Eo;
            simpl in Hp; [discriminate|];
          injection Hp as <-; apply Z.eqb_neq in Eh, Eo; auto));
    destruct Hv as (Hv0 & Hh & ->); (split; [exact Hh|split; [exact Hv0|]]);
    eexists; reflexivity.
Qed.


(** ** Witnesses of the further properties *)


Lemma X2_witness : get_window_text (untitled_platform sample_time) 7 = None.
Proof.
  apply (proj2 (X2_get_window_text_none_iff (untitled_platform sample_time) 7)).
  left; reflexivity.
Defined.

Lemma X3_witness :
  window_text (grown_title_platform sample_time) 7 <> [] /\
  get_window_text (grown_title_platform sample_time) 7 =
    Some (trim_end_nul (from_utf16_lossy (wide "Not"))).
Proof.
  split; [discriminate|].
  apply (proj1 (X3_get_window_text_truncates (grown_title_platform sample_time) 7
                  ltac:(discriminate) ltac:(discriminate))).
Defined.



Lemma X7_witness :
  to_string_lossy (wide "/bin/notepad") = "/bin/notepad".
Proof. apply (proj2 (X7_ascii_round_trip "/bin/notepad" eq_refl)). Defined.

Lemma X8_witness : read_dec (show_dec 4294967295) = 4294967295.
Proof. apply X8_show_dec_round_trip. lia. Defined.


Lemma X10_witness :
  snd (loop_iteration (exited_platform sample_time)
         (mkState None (<[4242 := mkProcess None]> ∅))) =
  snd (loop_iteration (exited_platform sample_time) initial_state).
Proof.
  apply (proj2 (X10_event_from_current_os (exited_platform sample_time)
                  initial_state 4242 ltac:(discriminate) eq_refl)).
Defined.

Lemma X12_witness :
  (sum_list_with emitted
     (traces [notepad_platform sample_time; notepad_platform sample_time;
              notepad_platform sample_time] initial_state) <= 1)%nat.
Proof. apply (X12_same_handle_run_at_most_one _ _ 7). repeat constructor. Defined.

Lemma X13_witness :
  GetForegroundWindow (notepad_platform sample_time) <> 0.
Proof.
  apply (proj1 (X13_event_carries_owner_pid (notepad_platform sample_time)
    initial_state
    (live_message (format_timestamp sample_time) 4242 "Notepad" "/bin/notepad")
    ltac:(vm_compute; right; right; left; reflexivity))).
Defined.

